(** * RegressionErrorBiasTable: the legacy-to-new metric adapter

    A shallow embedding of [MIGRATION_EXAMPLE_ERROR_BIAS_TABLE.py]: the metric
    declaration [RegressionErrorBiasTable] and the calculation class
    [RegressionErrorBiasTableCalculation] that bridges it to the legacy
    metric.  Python exceptions are values of [exn] carried by the [res]
    monad, Python floats are IEEE-754 binary64 numbers ([spec_float] with
    [prec = 53], [emax = 1024]), dictionaries are the lists of their items in
    iteration order, and the module's global namespace and the attributes of
    the calculation object are finite maps from names. *)

From Stdlib Require Import ZArith Lia SpecFloat.
From stdpp Require Import base option list strings gmap.

Local Open Scope Z_scope.

(** ** Exceptions and results *)

Inductive exn :=
  | NameError (name : string)
  | AttributeError (name : string)
  | OverflowError
  | TaskNotFound (task : string)
  | InvalidParameter (what : string).

Inductive res (A : Type) :=
  | Return (a : A)
  | Raise (e : exn).
Arguments Return {A} a.
Arguments Raise {A} e.

#[global] Instance res_ret : MRet res := fun A a => Return a.
#[global] Instance res_bind : MBind res := fun A B k c =>
  match c with
  | Return a => k a
  | Raise e => Raise e
  end.

Definition raises {A} (c : res A) : Prop := exists e, c = Raise e.
Definition returns {A} (c : res A) : Prop := exists a, c = Return a.

(** ** Python floats *)

Definition prec : Z := 53.
Definition emax : Z := 1024.
Abbreviation float := spec_float.

(** The literal [0.0]. *)
Definition float_zero : float := S754_zero false.

(** [x <= y] on floats; false when either side is a NaN. *)
Definition float_le (x y : float) : bool := SFleb x y.

(** The literal [0.5], in canonical form (53-bit mantissa). *)
Definition float_half : float := S754_finite false 4503599627370496 (-53).

(** [sys.maxsize]: the largest value [len] can return. *)
Definition sys_maxsize : Z := 2 ^ 63 - 1.

(** [float(n)] for a Python [int]: round to nearest, ties to even; an [int]
    too large for a binary64 raises [OverflowError] instead of becoming an
    infinity. *)
Definition py_float (n : Z) : res float :=
  match binary_normalize prec emax n 0 false with
  | S754_infinity _ => Raise OverflowError
  | x => Return x
  end.

(** ** Data model *)

(** A [dict] with [str] keys: its items in iteration order. *)
Definition dict (V : Type) : Type := list (string * V).

(** [len(d)]. *)
Definition py_len {V} (d : dict V) : Z := Z.of_nat (length d).

(** Modelled from the spec: [BaseWidgetInfo] (evidently.legacy.model.widget)
    is a rendering artifact the adapter only passes around; its title stands
    for its content. *)
Record BaseWidgetInfo := { widget_title : string }.

(** Modelled from the spec: [RegressionErrorBiasTableResults]
    (evidently.legacy.metrics.regression_performance.error_bias_table), "a
    structure containing a mapping from feature name to bias statistics,
    plus auxiliary plotting data".  [error_bias] may be [None]. *)
Record RegressionErrorBiasTableResults := {
  error_bias : option (dict (dict float));
  current_plot_data : dict (list float);
}.

(** Modelled from the spec: [SingleValue] (evidently.core.metric_types), "a
    single float plus an optional ordered sequence of rendering artifacts". *)
Record SingleValue := {
  value : float;
  widget : option (list BaseWidgetInfo);
}.

(** Modelled from the spec: the execution [Context] (evidently.core.report)
    exposes task-to-column resolution: the regression tasks registered in
    the data definition, by name, each a (target, prediction) column pair. *)
Record Context := {
  regression_tasks : gmap string (string * string);
}.

(** Modelled from the spec: the legacy [InputData]
    (evidently.legacy.base_metric), reduced to the column mapping the
    regression task resolves to. *)
Record InputData := {
  target : string;
  prediction : string;
}.

(** *** STEP 1: the new metric class (lines 48-82) *)

Record RegressionErrorBiasTable := {
  regression_name : string;
  columns : option (list string);
  top_error : option float;
}.

(** *** STEP 2: the calculation class (lines 86-179) *)

Record RegressionErrorBiasTableCalculation := {
  metric : RegressionErrorBiasTable;
}.

(** Lines 139-147: the scalar extracted from the legacy result, the local
    [value] that line 149 hands to [self.result]. *)
Definition scalar_value (legacy_result : RegressionErrorBiasTableResults)
  : res float :=
  match error_bias legacy_result with
  | None => Return float_zero
  | Some eb =>
      if py_len eb =? 0 then Return float_zero
      else py_float (py_len eb)
  end.

(** Lines 108-115. *)
Definition task_name (self : RegressionErrorBiasTableCalculation) : string :=
  regression_name (metric self).

(** Lines 165-175. *)
Definition get_additional_widgets (self : RegressionErrorBiasTableCalculation)
    (context : Context) : list BaseWidgetInfo :=
  [].

(** Lines 177-179. *)
Definition display_name (self : RegressionErrorBiasTableCalculation) : string :=
  "Regression Error Bias Table".

(** The dataclass-style constructor of the declaration: every field is a
    keyword with the class-level default of lines 75-82.  A keyword that is
    not passed is [None] here; [columns] and [top_error] are themselves
    [Optional], hence the nested option. *)
Record RegressionErrorBiasTable_kwargs := {
  kw_regression_name : option string;
  kw_columns : option (option (list string));
  kw_top_error : option (option float);
}.

Definition no_kwargs : RegressionErrorBiasTable_kwargs :=
  {| kw_regression_name := None; kw_columns := None; kw_top_error := None |}.

Definition new_RegressionErrorBiasTable (kw : RegressionErrorBiasTable_kwargs)
  : RegressionErrorBiasTable :=
  {| regression_name := default "default" (kw_regression_name kw);
     columns := default None (kw_columns kw);
     top_error := default None (kw_top_error kw) |}.

(** Number of entries of the feature-bias mapping; an absent mapping has
    none. *)
Definition bias_size (legacy_result : RegressionErrorBiasTableResults) : Z :=
  match error_bias legacy_result with
  | None => 0
  | Some eb => py_len eb
  end.

(** ** The module's namespace and name resolution *)

(** What a global name can be bound to: an object imported from another
    module, an attribute every module has, a class defined by this module,
    or a builtin. *)
Inductive pyobj :=
  | Imported (from_module name : string)
  | ModuleAttr (name : string)
  | ClassObj (name : string)
  | Builtin (name : string).

(** The names bound at module level when the file has been executed: the
    module attributes, the imports of lines 24-44 and the two class
    statements of lines 48 and 86. *)
Definition module_bindings : list (string * pyobj) :=
  [ ("__name__", ModuleAttr "__name__"); ("__doc__", ModuleAttr "__doc__");
    ("__package__", ModuleAttr "__package__");
    ("__loader__", ModuleAttr "__loader__"); ("__spec__", ModuleAttr "__spec__");
    ("__file__", ModuleAttr "__file__"); ("__cached__", ModuleAttr "__cached__");
    ("__builtins__", ModuleAttr "__builtins__");
    ("List", Imported "typing" "List"); ("Optional", Imported "typing" "Optional");
    ("Dict", Imported "typing" "Dict"); ("Tuple", Imported "typing" "Tuple");
    ("TypeVar", Imported "typing" "TypeVar"); ("Generic", Imported "typing" "Generic");
    ("abc", Imported "abc" "abc");
    ("SingleValue", Imported "evidently.core.metric_types" "SingleValue");
    ("SingleValueMetric", Imported "evidently.core.metric_types" "SingleValueMetric");
    ("MetricResult", Imported "evidently.core.metric_types" "MetricResult");
    ("get_default_render", Imported "evidently.core.metric_types" "get_default_render");
    ("get_default_render_ref",
       Imported "evidently.core.metric_types" "get_default_render_ref");
    ("Context", Imported "evidently.core.report" "Context");
    ("InputData", Imported "evidently.legacy.base_metric" "InputData");
    ("BaseWidgetInfo", Imported "evidently.legacy.model.widget" "BaseWidgetInfo");
    ("LegacyMetricCalculation",
       Imported "evidently.metrics._legacy" "LegacyMetricCalculation");
    ("LegacyRegressionErrorBiasTable",
       Imported "evidently.legacy.metrics.regression_performance.error_bias_table"
                "RegressionErrorBiasTable");
    ("RegressionErrorBiasTableResults",
       Imported "evidently.legacy.metrics.regression_performance.error_bias_table"
                "RegressionErrorBiasTableResults");
    ("RegressionErrorBiasTable", ClassObj "RegressionErrorBiasTable");
    ("RegressionErrorBiasTableCalculation",
       ClassObj "RegressionErrorBiasTableCalculation") ].

Definition module_globals : gmap string pyobj := list_to_map module_bindings.

(** The names of the [builtins] module. *)
Definition py_builtins : list string :=
  [ "abs"; "aiter"; "all"; "anext"; "any"; "ascii"; "bin"; "bool"; "breakpoint";
    "bytearray"; "bytes"; "callable"; "chr"; "classmethod"; "compile"; "complex";
    "copyright"; "credits"; "delattr"; "dict"; "dir"; "divmod"; "enumerate";
    "eval"; "exec"; "exit"; "filter"; "float"; "format"; "frozenset"; "getattr";
    "globals"; "hasattr"; "hash"; "help"; "hex"; "id"; "input"; "int";
    "isinstance"; "issubclass"; "iter"; "len"; "license"; "list"; "locals";
    "map"; "max"; "memoryview"; "min"; "next"; "object"; "oct"; "open"; "ord";
    "pow"; "print"; "property"; "quit"; "range"; "repr"; "reversed"; "round";
    "set"; "setattr"; "slice"; "sorted"; "staticmethod"; "str"; "sum"; "super";
    "tuple"; "type"; "vars"; "zip";
    "__build_class__"; "__debug__"; "__doc__"; "__import__"; "__loader__";
    "__name__"; "__package__"; "__spec__";
    "False"; "True"; "None"; "Ellipsis"; "NotImplemented";
    "ArithmeticError"; "AssertionError"; "AttributeError"; "BaseException";
    "BaseExceptionGroup"; "BlockingIOError"; "BrokenPipeError"; "BufferError";
    "BytesWarning"; "ChildProcessError"; "ConnectionAbortedError";
    "ConnectionError"; "ConnectionRefusedError"; "ConnectionResetError";
    "DeprecationWarning"; "EOFError"; "EncodingWarning"; "EnvironmentError";
    "Exception"; "ExceptionGroup"; "FileExistsError"; "FileNotFoundError";
    "FloatingPointError"; "FutureWarning"; "GeneratorExit"; "IOError";
    "ImportError"; "ImportWarning"; "IndentationError"; "IndexError";
    "InterruptedError"; "IsADirectoryError"; "KeyError"; "KeyboardInterrupt";
    "LookupError"; "MemoryError"; "ModuleNotFoundError"; "NameError";
    "NotADirectoryError"; "NotImplementedError"; "OSError"; "OverflowError";
    "PendingDeprecationWarning"; "PermissionError"; "ProcessLookupError";
    "PythonFinalizationError"; "RecursionError"; "ReferenceError";
    "ResourceWarning"; "RuntimeError"; "RuntimeWarning"; "StopAsyncIteration";
    "StopIteration"; "SyntaxError"; "SyntaxWarning"; "SystemError"; "SystemExit";
    "TabError"; "TimeoutError"; "TypeError"; "UnboundLocalError";
    "UnicodeDecodeError"; "UnicodeEncodeError"; "UnicodeError";
    "UnicodeTranslateError"; "UnicodeWarning"; "UserWarning"; "ValueError";
    "Warning"; "ZeroDivisionError" ].

(** Loading a name that is not local to the function: the module's globals
    first, then the builtins, else [NameError]. *)
Definition load_global (globals : gmap string pyobj) (name : string) : res pyobj :=
  match globals !! name with
  | Some o => Return o
  | None =>
      if bool_decide (name ∈ py_builtins) then Return (Builtin name)
      else Raise (NameError name)
  end.

(** ** The attributes of the calculation object *)

(** What an attribute of a [RegressionErrorBiasTableCalculation] is: a method
    the class defines itself, or something its base class brings. *)
Inductive attribute :=
  | OwnMethod (name : string)
  | Inherited (from_class name : string).

(** The methods of lines 96-179. *)
Definition own_methods : list (string * attribute) :=
  [ ("legacy_metric", OwnMethod "legacy_metric");
    ("task_name", OwnMethod "task_name");
    ("calculate_value", OwnMethod "calculate_value");
    ("_gen_input_data", OwnMethod "_gen_input_data");
    ("get_additional_widgets", OwnMethod "get_additional_widgets");
    ("display_name", OwnMethod "display_name") ].

(** Modelled from the spec: the only base of the class (lines 86-93),
    [LegacyMetricCalculation] of evidently.metrics._legacy, is not under
    src/.  By the adapter contract of the spec it holds the declaration
    ([metric], read at lines 104, 105 and 115) and drives one run
    ([calculate]); the operations it leaves to the adapter are the methods
    above.  It brings no [result]: the module imports the result type
    [SingleValue] (line 27) and no class that builds one. *)
Definition inherited_attributes : list (string * attribute) :=
  [ ("metric", Inherited "LegacyMetricCalculation" "metric");
    ("calculate", Inherited "LegacyMetricCalculation" "calculate") ].

(** The attributes of an instance, the class's own methods taking precedence
    over what is inherited. *)
Definition instance_attributes : gmap string attribute :=
  list_to_map (own_methods ++ inherited_attributes).

(** [self.<name>]: the attribute, else [AttributeError]. *)
Definition getattr (attrs : gmap string attribute) (name : string)
  : res attribute :=
  match attrs !! name with
  | Some a => Return a
  | None => Raise (AttributeError name)
  end.

(** Modelled from the spec: [resolve_task_inputs(context, task_name)] "looks
    up the target/prediction column names registered under [task_name] in the
    execution context; fails with TaskNotFound if no regression task with
    that name was registered".  This is the behaviour the absent helper
    [_gen_regression_input_data] is documented to provide. *)
Definition resolve_task_inputs (context : Context) (task : string) : res InputData :=
  match regression_tasks context !! task with
  | Some (t, p) => Return {| target := t; prediction := p |}
  | None => Raise (TaskNotFound task)
  end.

(** Modelled from the spec: [forward_render_artifacts]: the widget list of
    the published result is the legacy renderer's output, followed by what
    the adapter adds (comment of lines 172-174). *)
Definition forward_render_artifacts (self : RegressionErrorBiasTableCalculation)
    (context : Context) (legacy_render : list BaseWidgetInfo)
  : list BaseWidgetInfo :=
  legacy_render ++ get_additional_widgets self context.

(** ** The legacy engine *)

(** Modelled from the spec: the legacy request, "the legacy engine's
    expected constructor shape" for [columns] and [top_error]. *)
Record LegacyRequest := {
  legacy_columns : option (list string);
  legacy_top_error : option float;
}.

(** Modelled from the spec: a legacy constructor that "fails with
    InvalidParameter when threshold outside [0, 0.5]". *)
Definition legacy_request_checked (cols : option (list string))
    (te : option float) : res LegacyRequest :=
  match te with
  | Some t =>
      if float_le float_zero t && float_le t float_half
      then Return {| legacy_columns := cols; legacy_top_error := te |}
      else Raise (InvalidParameter "top_error")
  | None => Return {| legacy_columns := cols; legacy_top_error := te |}
  end.

Section Adapter.
(** The legacy metric class [LegacyRegressionErrorBiasTable] and the legacy
    computation are external: its constructor and its engine are taken as
    they come, either may raise. *)
Context {LegacyMetric : Type}.
Variable legacy_new : option (list string) -> option float -> res LegacyMetric.
Variable legacy_calculate : LegacyMetric -> InputData ->
  res (RegressionErrorBiasTableResults * list BaseWidgetInfo).

(** What the objects bound outside this file do when called is theirs to
    say: [call_object callee context task_name] is the call
    [callee(context, task_name)] of a global, and
    [call_method method self value] the call [self.<method>(value)] of an
    attribute. *)
Variable call_object : pyobj -> Context -> option string -> res InputData.
Variable call_method : attribute -> RegressionErrorBiasTableCalculation ->
  float -> res SingleValue.

(** Lines 117-149, for an object whose attributes are [attrs]: the scalar is
    computed first, then [self.result] is looked up and called. *)
Definition calculate_value_in (attrs : gmap string attribute)
    (self : RegressionErrorBiasTableCalculation) (context : Context)
    (legacy_result : RegressionErrorBiasTableResults)
    (render : list BaseWidgetInfo) : res SingleValue :=
  v ← scalar_value legacy_result;
  method ← getattr attrs "result";
  call_method method self v.

(** Lines 117-149, on an instance of the class as written. *)
Definition calculate_value : RegressionErrorBiasTableCalculation ->
    Context -> RegressionErrorBiasTableResults -> list BaseWidgetInfo ->
    res SingleValue :=
  calculate_value_in instance_attributes.

(** Lines 151-163, in a module whose globals are [globals]: the callee is a
    free name of the method, resolved when the body runs. *)
Definition _gen_input_data_in (globals : gmap string pyobj)
    (self : RegressionErrorBiasTableCalculation) (context : Context)
    (task : option string) : res InputData :=
  callee ← load_global globals "_gen_regression_input_data";
  call_object callee context task.

(** Lines 151-163, in the module as written. *)
Definition _gen_input_data : RegressionErrorBiasTableCalculation ->
    Context -> option string -> res InputData :=
  _gen_input_data_in module_globals.

(** Lines 96-106. *)
Definition legacy_metric (self : RegressionErrorBiasTableCalculation)
  : res LegacyMetric :=
  legacy_new (columns (metric self)) (top_error (metric self)).

(** Modelled from the spec: one run of the adapter by the report, "Adapter
    builds legacy request → external legacy engine computes → Adapter
    reduces result → Report aggregates scalar + widgets", with the task
    inputs resolved for [task_name()] before the engine is called.  The
    driver itself ([LegacyMetricCalculation.calculate]) is external. *)
Definition calculate_in (globals : gmap string pyobj)
    (self : RegressionErrorBiasTableCalculation) (context : Context)
  : res SingleValue :=
  request ← legacy_metric self;
  input ← _gen_input_data_in globals self context (Some (task_name self));
  '(legacy_result, render) ← legacy_calculate request input;
  sv ← calculate_value self context legacy_result render;
  Return {| value := value sv;
            widget := Some (forward_render_artifacts self context render) |}.

Definition calculate : RegressionErrorBiasTableCalculation -> Context ->
    res SingleValue :=
  calculate_in module_globals.

(** *** The adapter over a store of objects

    The declaration and the legacy result are Python objects: a method
    reaches them through references and could assign to their attributes.
    Here the two objects live in a [Heap]; a method is a function from the
    heap to its outcome and the heap it leaves, an exception leaving the
    heap as it was when raised. *)
Record Heap := {
  heap_metric : RegressionErrorBiasTable;
  heap_legacy_result : RegressionErrorBiasTableResults;
}.

Definition Py (A : Type) : Type := Heap -> res A * Heap.

Definition py_ret {A} (a : A) : Py A := fun h => (Return a, h).

Definition py_bind {A B} (c : Py A) (k : A -> Py B) : Py B := fun h =>
  match c h with
  | (Return a, h') => k a h'
  | (Raise e, h') => (Raise e, h')
  end.

(** [self.metric.<attr>] *)
Definition getattr_metric {A} (attr : RegressionErrorBiasTable -> A) : Py A :=
  fun h => (Return (attr (heap_metric h)), h).

(** [legacy_result.<attr>] *)
Definition getattr_legacy_result {A}
    (attr : RegressionErrorBiasTableResults -> A) : Py A :=
  fun h => (Return (attr (heap_legacy_result h)), h).

(** An assignment [self.metric = m]; no method of the adapter uses it. *)
Definition setattr_metric (m : RegressionErrorBiasTable) : Py unit :=
  fun h => (Return tt,
            {| heap_metric := m; heap_legacy_result := heap_legacy_result h |}).

(** [self]: the calculation object, whose [metric] attribute refers to the
    declaration in the heap. *)
Definition py_self : Py RegressionErrorBiasTableCalculation :=
  fun h => (Return {| metric := heap_metric h |}, h).

(** A computation that only returns or raises. *)
Definition py_lift {A} (c : res A) : Py A := fun h => (c, h).

(** Lines 96-106. *)
Definition legacy_metric_st : Py LegacyMetric :=
  py_bind (getattr_metric columns) (fun cols =>
  py_bind (getattr_metric top_error) (fun te =>
  py_lift (legacy_new cols te))).

(** Lines 108-115. *)
Definition task_name_st : Py string := getattr_metric regression_name.

(** Lines 117-149. *)
Definition calculate_value_st (context : Context)
    (render : list BaseWidgetInfo) : Py SingleValue :=
  py_bind (getattr_legacy_result error_bias) (fun eb =>
  py_bind (match eb with
           | None => py_ret float_zero
           | Some d =>
               if py_len d =? 0 then py_ret float_zero
               else py_lift (py_float (py_len d))
           end) (fun v =>
  py_bind py_self (fun self =>
  py_bind (py_lift (getattr instance_attributes "result")) (fun method =>
  py_lift (call_method method self v))))).

(** Lines 165-175. *)
Definition get_additional_widgets_st (context : Context)
  : Py (list BaseWidgetInfo) :=
  py_ret [].

(** The calls a report can make on the adapter, and what each gives. *)
Inductive adapter_call :=
  | CallLegacyMetric
  | CallTaskName
  | CallCalculateValue (context : Context) (render : list BaseWidgetInfo)
  | CallGetAdditionalWidgets (context : Context).

Inductive outcome :=
  | GotLegacyMetric (r : res LegacyMetric)
  | GotTaskName (r : res string)
  | GotValue (r : res SingleValue)
  | GotWidgets (r : res (list BaseWidgetInfo)).

Definition exec (c : adapter_call) (h : Heap) : outcome * Heap :=
  match c with
  | CallLegacyMetric => let (r, h') := legacy_metric_st h in (GotLegacyMetric r, h')
  | CallTaskName => let (r, h') := task_name_st h in (GotTaskName r, h')
  | CallCalculateValue context render =>
      let (r, h') := calculate_value_st context render h in (GotValue r, h')
  | CallGetAdditionalWidgets context =>
      let (r, h') := get_additional_widgets_st context h in (GotWidgets r, h')
  end.

(** A sequence of calls, each starting from the heap the previous left. *)
Fixpoint run_calls (cs : list adapter_call) (h : Heap) : list outcome * Heap :=
  match cs with
  | [] => ([], h)
  | c :: cs' =>
      let (o, h1) := exec c h in
      let (os, h2) := run_calls cs' h1 in
      (o :: os, h2)
  end.

(** What a call gives when made directly on the objects' values. *)
Definition pure_outcome (c : adapter_call) (h : Heap) : outcome :=
  let self := {| metric := heap_metric h |} in
  match c with
  | CallLegacyMetric => GotLegacyMetric (legacy_metric self)
  | CallTaskName => GotTaskName (Return (task_name self))
  | CallCalculateValue context render =>
      GotValue (calculate_value self context (heap_legacy_result h) render)
  | CallGetAdditionalWidgets context =>
      GotWidgets (Return (get_additional_widgets self context))
  end.
End Adapter.

(** ** Sample inputs *)

(** The adapter over [RegressionErrorBiasTable()]. *)
Definition default_adapter : RegressionErrorBiasTableCalculation :=
  {| metric := new_RegressionErrorBiasTable no_kwargs |}.

(** The adapter over [RegressionErrorBiasTable(columns=['age'])]. *)
Definition age_adapter : RegressionErrorBiasTableCalculation :=
  {| metric := new_RegressionErrorBiasTable
       {| kw_regression_name := None; kw_columns := Some (Some ["age"]);
          kw_top_error := None |} |}.

(** The adapter over [RegressionErrorBiasTable(columns=['age', 'income'],
    top_error=0.1, regression_name='pricing_model')] of usage example 2;
    [0.1] is the binary64 nearest to one tenth. *)
Definition pricing_adapter : RegressionErrorBiasTableCalculation :=
  {| metric := new_RegressionErrorBiasTable
       {| kw_regression_name := Some "pricing_model";
          kw_columns := Some (Some ["age"; "income"]);
          kw_top_error := Some (Some (S754_finite false 7205759403792794 (-56))) |} |}.

(** A context in which [add_regression_task(Regression(target='target',
    prediction='prediction'))] registered the task under its default name. *)
Definition default_context : Context :=
  {| regression_tasks := {[ "default" := ("target", "prediction") ]} |}.

(** A context with no regression task. *)
Definition empty_context : Context := {| regression_tasks := ∅ |}.

(** Two legacy results over the features [age] and [income] whose mappings
    list them in opposite orders, with different plot data. *)
Definition age_income_result : RegressionErrorBiasTableResults :=
  {| error_bias := Some [("age", [("mean", float_zero)]); ("income", [])];
     current_plot_data := [] |}.

Definition income_age_result : RegressionErrorBiasTableResults :=
  {| error_bias := Some [("income", []); ("age", [("mean", float_zero)])];
     current_plot_data := [("target", [float_half])] |}.

(** A legacy result without a feature-bias mapping, and one whose mapping is
    empty. *)
Definition none_result : RegressionErrorBiasTableResults :=
  {| error_bias := None; current_plot_data := [] |}.

Definition empty_result : RegressionErrorBiasTableResults :=
  {| error_bias := Some []; current_plot_data := [] |}.

(** A legacy result over the single feature [age]. *)
Definition age_result : RegressionErrorBiasTableResults :=
  {| error_bias := Some [("age", [("mean", float_zero)])];
     current_plot_data := [] |}.

(** ** Reading floats *)

(** [x < y] on floats; false when either side is a NaN. *)
Definition float_lt (x y : float) : bool := SFltb x y.

(** The integer a float denotes, if it denotes one: [int(x)] for a float with
    [x.is_integer()]. *)
Definition float_to_int (x : float) : option Z :=
  match x with
  | S754_zero _ => Some 0
  | S754_finite s m e =>
      if 0 <=? e then Some ((if s then -1 else 1) * (Z.pos m * 2 ^ e))
      else if Z.pos m mod 2 ^ (- e) =? 0
           then Some ((if s then -1 else 1) * (Z.pos m / 2 ^ (- e)))
           else None
  | S754_infinity _ | S754_nan => None
  end.

(** A float that is a zero, a positive number or the positive infinity: its
    sign bit is clear and it is no NaN. *)
Definition nonneg_float (x : float) : Prop :=
  match x with
  | S754_zero s | S754_infinity s | S754_finite s _ _ => s = false
  | S754_nan => False
  end.

(** * Facts *)

(** ** The conversion [float(n)] *)

(** [digits2_pos p] is the bit length of [p]. *)
Lemma digits2_pos_bounds (p : positive) :
  2 ^ (Z.pos (digits2_pos p) - 1) <= Z.pos p < 2 ^ Z.pos (digits2_pos p).
Proof.
  induction p as [p IH | p IH | ]; cbn [digits2_pos]; [ | | cbn; lia].
  all: rewrite Pos2Z.inj_succ;
    replace (Z.succ (Z.pos (digits2_pos p)) - 1)
      with (Z.succ (Z.pos (digits2_pos p) - 1)) by lia;
    rewrite !Z.pow_succ_r by lia;
    revert IH; generalize (2 ^ (Z.pos (digits2_pos p) - 1)) (2 ^ Z.pos (digits2_pos p)); lia.
Qed.

Lemma Zdigits2_le (m k : Z) : 0 <= m < 2 ^ k -> 0 <= k -> 0 <= Zdigits2 m <= k.
Proof.
  intros [Hm Hlt] Hk. destruct m as [ | p | p]; cbn [Zdigits2]; try lia.
  pose proof (digits2_pos_bounds p) as [Hlo _].
  split; [lia | ].
  destruct (Z.le_gt_cases (Z.pos (digits2_pos p)) k) as [ | Hgt]; [done | ].
  assert (2 ^ k <= 2 ^ (Z.pos (digits2_pos p) - 1)) by (apply Z.pow_le_mono_r; lia).
  lia.
Qed.

(** One right shift halves a non-negative mantissa. *)
Lemma shr_1_range (mrs : shr_record) :
  0 <= shr_m mrs -> 0 <= shr_m (shr_1 mrs) <= shr_m mrs.
Proof.
  destruct mrs as [m r s]; cbn [shr_m]; intros Hm.
  destruct m as [ | [p | p | ] | p]; cbn; lia.
Qed.

Lemma iter_shr_1_range (n : positive) (mrs : shr_record) :
  0 <= shr_m mrs -> 0 <= shr_m (SpecFloat.iter_pos shr_1 n mrs) <= shr_m mrs.
Proof.
  revert mrs; induction n as [n IH | n IH | ]; intros mrs Hm; cbn [SpecFloat.iter_pos].
  - pose proof (shr_1_range mrs Hm) as H1.
    pose proof (IH (shr_1 mrs) ltac:(lia)) as H2.
    pose proof (IH (SpecFloat.iter_pos shr_1 n (shr_1 mrs)) ltac:(lia)). lia.
  - pose proof (IH mrs Hm) as H1.
    pose proof (IH (SpecFloat.iter_pos shr_1 n mrs) ltac:(lia)). lia.
  - by apply shr_1_range.
Qed.

Lemma shr_record_of_loc_m (m : Z) (l : location) : shr_m (shr_record_of_loc m l) = m.
Proof. by destruct l as [ | [ | | ]]. Qed.

(** [shr_fexp] never grows a non-negative mantissa, and moves the exponent
    up to the canonical one. *)
Lemma shr_fexp_range (m e : Z) (l : location) :
  0 <= m ->
  0 <= shr_m (shr_fexp prec emax m e l).1 <= m /\
  (shr_fexp prec emax m e l).2 = Z.max e (fexp prec emax (Zdigits2 m + e)).
Proof.
  intros Hm. unfold shr_fexp, shr.
  destruct (fexp prec emax (Zdigits2 m + e) - e) as [ | n | n] eqn:Hn; cbn [fst snd].
  - rewrite shr_record_of_loc_m. lia.
  - pose proof (iter_shr_1_range n (shr_record_of_loc m l)) as H.
    rewrite shr_record_of_loc_m in H. lia.
  - rewrite shr_record_of_loc_m. lia.
Qed.

Lemma round_nearest_even_range (m : Z) (l : location) :
  0 <= m -> m <= round_nearest_even m l <= m + 1.
Proof.
  intros Hm. destruct l as [ | [ | | ]]; cbn [round_nearest_even]; try lia.
  destruct (Z.even m); lia.
Qed.

Lemma binary_round_aux_nonneg (m e : Z) (l : location) :
  0 <= m -> nonneg_float (binary_round_aux prec emax false m e l).
Proof.
  intros Hm. unfold binary_round_aux.
  destruct (shr_fexp prec emax m e l) as [mrs' e'] eqn:H1.
  pose proof (shr_fexp_range m e l Hm) as [Hr1 _]. rewrite H1 in Hr1; cbn [fst] in Hr1.
  pose proof (round_nearest_even_range (shr_m mrs') (loc_of_shr_record mrs') ltac:(lia)) as Hr2.
  set (m2 := round_nearest_even _ _) in *.
  destruct (shr_fexp prec emax m2 e' loc_Exact) as [mrs'' e''] eqn:H2.
  pose proof (shr_fexp_range m2 e' loc_Exact ltac:(lia)) as [Hr3 _]. rewrite H2 in Hr3; cbn [fst] in Hr3.
  destruct (shr_m mrs'') as [ | q | q]; [done | | lia].
  by destruct (_ <=? _).
Qed.

Lemma binary_normalize_nonneg (n : Z) :
  0 <= n -> nonneg_float (binary_normalize prec emax n 0 false).
Proof.
  intros Hn. destruct n as [ | p | p]; [done | | lia].
  cbn [binary_normalize]. unfold binary_round.
  destruct (shl_align _ _ _) as [mz ez]. by apply binary_round_aux_nonneg.
Qed.

Lemma nonneg_float_le (x : float) : nonneg_float x -> float_le float_zero x = true.
Proof. destruct x as [s | s | | s m e]; cbn; intros H; by subst. Qed.


Lemma pos_iter_xO (p d : positive) :
  Z.pos (Pos.iter xO p d) = Z.pos p * 2 ^ Z.pos d.
Proof.
  induction d as [ | d IH] using Pos.peano_ind.
  - cbn [Pos.iter]. rewrite Pos2Z.inj_xO. change (2 ^ 1) with 2. lia.
  - rewrite Pos.iter_succ, Pos2Z.inj_xO, IH, Pos2Z.inj_succ, Z.pow_succ_r by lia. lia.
Qed.

(** [shl_align] lowers the exponent to the smaller of the two and scales the
    mantissa to match. *)
Lemma shl_align_spec (mx : positive) (ex ex' : Z) :
  (shl_align mx ex ex').2 = Z.min ex ex' /\
  Z.pos (shl_align mx ex ex').1 = Z.pos mx * 2 ^ (ex - (shl_align mx ex ex').2).
Proof.
  unfold shl_align. destruct (ex' - ex) as [ | d | d] eqn:Hd; cbn [fst snd].
  - split; [lia | ]. rewrite Z.sub_diag. cbn. lia.
  - split; [lia | ]. rewrite Z.sub_diag. cbn. lia.
  - split; [lia | ]. rewrite pos_iter_xO. do 2 f_equal. lia.
Qed.

(** Rounding a mantissa of at most 116 bits at a small exponent stays far
    below the overflow threshold. *)
Lemma binary_round_aux_no_overflow (m e : Z) (l : location) :
  0 <= m < 2 ^ 116 -> -53 <= e <= 0 ->
  forall s, binary_round_aux prec emax false m e l <> S754_infinity s.
Proof.
  intros [Hm Hlt] He s. unfold binary_round_aux.
  destruct (shr_fexp prec emax m e l) as [mrs' e'] eqn:H1.
  pose proof (shr_fexp_range m e l Hm) as [Hr1 He1].
  rewrite H1 in Hr1, He1; cbn [fst snd] in Hr1, He1.
  pose proof (round_nearest_even_range (shr_m mrs') (loc_of_shr_record mrs') ltac:(lia)) as Hr2.
  set (m2 := round_nearest_even _ _) in *.
  destruct (shr_fexp prec emax m2 e' loc_Exact) as [mrs'' e''] eqn:H2.
  pose proof (shr_fexp_range m2 e' loc_Exact ltac:(lia)) as [Hr3 He2].
  rewrite H2 in Hr3, He2; cbn [fst snd] in Hr3, He2.
  assert (Hd1 : 0 <= Zdigits2 m <= 116) by (apply Zdigits2_le; lia).
  assert (Hp : 2 ^ 116 + 1 <= 2 ^ 117) by (by vm_compute).
  assert (Hd2 : 0 <= Zdigits2 m2 <= 117) by (apply Zdigits2_le; lia).
  assert (He'' : e'' <= emax - prec) by (unfold fexp, emin, prec, emax in *; lia).
  destruct (shr_m mrs'') as [ | q | q]; [done | | done].
  apply Z.leb_le in He''. by rewrite He''.
Qed.

Lemma binary_normalize_no_overflow (n : Z) :
  0 <= n <= sys_maxsize ->
  forall s, binary_normalize prec emax n 0 false <> S754_infinity s.
Proof.
  intros [Hn Hmax] s. destruct n as [ | p | p]; [done | | lia].
  cbn [binary_normalize]. unfold binary_round.
  pose proof (shl_align_spec p 0 (fexp prec emax (Z.pos (digits2_pos p) + 0))) as [Hez Hmz].
  destruct (shl_align _ _ _) as [mz ez]; cbn [fst snd] in Hez, Hmz.
  assert (Hp : Z.pos p < 2 ^ 63) by (unfold sys_maxsize in Hmax; lia).
  assert (Hd : 0 <= Zdigits2 (Z.pos p) <= 63) by (apply Zdigits2_le; lia).
  cbn [Zdigits2] in Hd.
  assert (Hrange : -53 <= ez <= 0) by (unfold fexp, emin, prec, emax in *; lia).
  apply binary_round_aux_no_overflow; [ | done].
  split; [lia | ]. rewrite Hmz.
  assert (2 ^ (0 - ez) <= 2 ^ 53) by (apply Z.pow_le_mono_r; lia).
  assert (0 < 2 ^ (0 - ez)) by (apply Z.pow_pos_nonneg; lia).
  change (2 ^ 116) with (2 ^ 63 * 2 ^ 53).
  apply Z.lt_le_trans with (2 ^ 63 * 2 ^ (0 - ez)).
  - by apply Z.mul_lt_mono_pos_r.
  - apply Z.mul_le_mono_nonneg_l; [by vm_compute | done].
Qed.

(** [float(n)] of a length: it returns, and what it returns is a zero or a
    positive finite number. *)
Lemma py_float_nonneg (n : Z) (x : float) :
  0 <= n -> py_float n = Return x -> nonneg_float x.
Proof.
  intros Hn. unfold py_float.
  pose proof (binary_normalize_nonneg n Hn) as Hnn.
  destruct (binary_normalize prec emax n 0 false); intros [= <-]; done.
Qed.

Lemma py_float_returns (n : Z) :
  0 <= n <= sys_maxsize -> returns (py_float n).
Proof.
  intros Hn. unfold py_float, returns.
  pose proof (binary_normalize_no_overflow n Hn) as Hfin.
  destruct (binary_normalize prec emax n 0 false) as [s | s | | s m e]; eauto.
  by destruct (Hfin s).
Qed.

Lemma bias_size_range (legacy_result : RegressionErrorBiasTableResults) :
  0 <= bias_size legacy_result.
Proof. unfold bias_size, py_len. destruct (error_bias legacy_result); lia. Qed.

(** The two branches of lines 140-147 are one conversion: [float(0)] is the
    literal [0.0]. *)
Lemma scalar_value_eq (legacy_result : RegressionErrorBiasTableResults) :
  scalar_value legacy_result = py_float (bias_size legacy_result).
Proof.
  unfold scalar_value, bias_size.
  destruct (error_bias legacy_result) as [eb | ]; [ | done].
  destruct (Z.eqb_spec (py_len eb) 0) as [-> | ]; done.
Qed.

Lemma scalar_value_returns (legacy_result : RegressionErrorBiasTableResults) :
  bias_size legacy_result <= sys_maxsize -> returns (scalar_value legacy_result).
Proof.
  intros Hmax. rewrite scalar_value_eq. apply py_float_returns.
  pose proof (bias_size_range legacy_result). lia.
Qed.

(** No attribute [result] on an instance of the class. *)
Lemma result_unbound :
  getattr instance_attributes "result" = Raise (AttributeError "result").
Proof. by vm_compute. Qed.

(** ** Render artifacts *)

(** C7: the adapter adds no widget: [get_additional_widgets] returns the
    empty list for every context, so the widgets forwarded to the report are
    the legacy renderer's, unchanged. *)
Theorem get_additional_widgets_empty
    (self : RegressionErrorBiasTableCalculation) (context : Context)
    (legacy_render : list BaseWidgetInfo) :
  get_additional_widgets self context = []
  /\ forward_render_artifacts self context legacy_render = legacy_render.
Proof.
  split; [done | ]. unfold forward_render_artifacts, get_additional_widgets.
  apply app_nil_r.
Qed.

(** ** The declaration *)

(** C10: [RegressionErrorBiasTable()] has [regression_name = "default"],
    [columns = None] and [top_error = None], and [task_name()] of an adapter
    over it is ["default"]. *)
Theorem default_declaration :
  regression_name (new_RegressionErrorBiasTable no_kwargs) = "default"
  /\ columns (new_RegressionErrorBiasTable no_kwargs) = None
  /\ top_error (new_RegressionErrorBiasTable no_kwargs) = None
  /\ task_name {| metric := new_RegressionErrorBiasTable no_kwargs |} = "default".
Proof. done. Qed.

(** ** Task inputs *)

Lemma helper_unbound :
  load_global module_globals "_gen_regression_input_data"
  = Raise (NameError "_gen_regression_input_data").
Proof. by vm_compute. Qed.

(** ** Exact conversions, positivity and order *)

Lemma Zdigits2_unique (m k : Z) :
  2 ^ (k - 1) <= m < 2 ^ k -> 0 < k -> Zdigits2 m = k.
Proof.
  intros [Hlo Hhi] Hk.
  assert (0 < 2 ^ (k - 1)) by (apply Z.pow_pos_nonneg; lia).
  destruct m as [ | p | p]; try lia. cbn [Zdigits2].
  pose proof (digits2_pos_bounds p) as [Hlo' Hhi'].
  set (d := Z.pos (digits2_pos p)) in *.
  destruct (Z.lt_trichotomy d k) as [Hlt | [Heq | Hgt]]; [ | done | ].
  - assert (2 ^ d <= 2 ^ (k - 1)) by (apply Z.pow_le_mono_r; lia). lia.
  - assert (2 ^ k <= 2 ^ (d - 1)) by (apply Z.pow_le_mono_r; lia). lia.
Qed.

(** A mantissa that already has [prec] bits at an exponent in range is kept
    as it is. *)
Lemma binary_round_aux_canonical (mz : positive) (ez : Z) :
  Zdigits2 (Z.pos mz) = prec -> emin prec emax <= ez <= emax - prec ->
  binary_round_aux prec emax false (Z.pos mz) ez loc_Exact
  = S754_finite false mz ez.
Proof.
  intros Hd He.
  assert (Hshift : fexp prec emax (Zdigits2 (Z.pos mz) + ez) - ez = 0)
    by (rewrite Hd; unfold fexp, emin, prec, emax in *; lia).
  unfold binary_round_aux, shr_fexp. rewrite Hshift.
  cbn [shr shr_record_of_loc shr_m loc_of_shr_record round_nearest_even].
  rewrite Hshift. cbn [shr shr_m].
  destruct (Z.leb_spec ez (emax - prec)); [done | lia].
Qed.

(** [float(n)] for [0 < n < 2^53]: [n] scaled to a 53-bit mantissa. *)
Lemma binary_round_small (p : positive) :
  Z.pos p < 2 ^ 53 ->
  exists mz,
    binary_round prec emax false p 0
    = S754_finite false mz (Z.pos (digits2_pos p) - 53)
    /\ Z.pos mz = Z.pos p * 2 ^ (53 - Z.pos (digits2_pos p)).
Proof.
  intros Hp.
  assert (Hd : 0 <= Zdigits2 (Z.pos p) <= 53) by (apply Zdigits2_le; lia).
  cbn [Zdigits2] in Hd.
  pose proof (digits2_pos_bounds p) as [Hlo Hhi].
  set (d := Z.pos (digits2_pos p)) in *.
  unfold binary_round. fold d.
  pose proof (shl_align_spec p 0 (fexp prec emax (d + 0))) as [Hez Hmz].
  destruct (shl_align _ _ _) as [mz ez]; cbn [fst snd] in Hez, Hmz.
  assert (Hez' : ez = d - 53) by (unfold fexp, emin, prec, emax in *; lia).
  clear Hez. subst ez. exists mz. replace (0 - (d - 53)) with (53 - d) in Hmz by lia.
  split; [ | done].
  apply binary_round_aux_canonical; [ | unfold emin, prec, emax; lia].
  apply Zdigits2_unique; [ | done]. rewrite Hmz. unfold prec.
  replace (2 ^ (53 - 1)) with (2 ^ (d - 1) * 2 ^ (53 - d))
    by (rewrite <- Z.pow_add_r by lia; f_equal; lia).
  replace (2 ^ 53) with (2 ^ d * 2 ^ (53 - d))
    by (rewrite <- Z.pow_add_r by lia; f_equal; lia).
  assert (0 < 2 ^ (53 - d)) by (apply Z.pow_pos_nonneg; lia).
  split; [by apply Z.mul_le_mono_nonneg_r; lia | by apply Z.mul_lt_mono_pos_r].
Qed.

Lemma shr_1_div (mrs : shr_record) :
  0 <= shr_m mrs -> shr_m (shr_1 mrs) = shr_m mrs / 2.
Proof.
  destruct mrs as [m r s]; cbn [shr_m]; intros Hm. rewrite <- Z.div2_div.
  destruct m as [ | [p | p | ] | p]; done || lia.
Qed.

Lemma iter_shr_1_div (n : positive) (mrs : shr_record) :
  0 <= shr_m mrs ->
  shr_m (SpecFloat.iter_pos shr_1 n mrs) = shr_m mrs / 2 ^ Z.pos n.
Proof.
  revert mrs; induction n as [n IH | n IH | ]; intros mrs Hm;
    cbn [SpecFloat.iter_pos].
  - pose proof (shr_1_range mrs Hm) as H1.
    pose proof (iter_shr_1_range n (shr_1 mrs) ltac:(lia)) as H2.
    assert (Hp : 0 < 2 ^ Z.pos n) by (apply Z.pow_pos_nonneg; lia).
    rewrite !IH, shr_1_div, !Z.div_div by lia.
    f_equal. change (Z.pos n~1) with (2 * Z.pos n + 1).
    replace (2 * Z.pos n + 1) with (1 + Z.pos n + Z.pos n) by lia.
    rewrite !Z.pow_add_r by lia. change (2 ^ 1) with 2. ring.
  - pose proof (iter_shr_1_range n mrs Hm) as H1.
    assert (Hp : 0 < 2 ^ Z.pos n) by (apply Z.pow_pos_nonneg; lia).
    rewrite !IH, !Z.div_div by lia.
    f_equal. change (Z.pos n~0) with (2 * Z.pos n).
    replace (2 * Z.pos n) with (Z.pos n + Z.pos n) by lia.
    rewrite Z.pow_add_r by lia. ring.
  - by apply shr_1_div.
Qed.

(** [shr_fexp] keeps a positive mantissa positive as long as the exponent is
    at least [emin]: it drops at most the bits beyond the first [prec]. *)
Lemma shr_fexp_pos (m e : Z) (l : location) :
  1 <= m -> emin prec emax <= e ->
  1 <= shr_m (shr_fexp prec emax m e l).1.
Proof.
  intros Hm He. unfold shr_fexp, shr.
  destruct (fexp prec emax (Zdigits2 m + e) - e) as [ | n | n] eqn:Hn;
    cbn [fst]; rewrite ?shr_record_of_loc_m; try done.
  rewrite iter_shr_1_div, shr_record_of_loc_m
    by (rewrite shr_record_of_loc_m; lia).
  destruct m as [ | p | p]; try lia. cbn [Zdigits2] in Hn.
  pose proof (digits2_pos_bounds p) as [Hlo _].
  set (d := Z.pos (digits2_pos p)) in *.
  assert (Hle : Z.pos n <= d - 1) by (unfold fexp, emin, prec, emax in *; lia).
  assert (Hpow : 2 ^ Z.pos n <= 2 ^ (d - 1)) by (apply Z.pow_le_mono_r; lia).
  assert (0 < 2 ^ Z.pos n) by (apply Z.pow_pos_nonneg; lia).
  apply Z.div_le_lower_bound; lia.
Qed.

Lemma binary_round_aux_pos (m e : Z) (l : location) :
  1 <= m -> emin prec emax <= e ->
  forall s, binary_round_aux prec emax false m e l <> S754_zero s.
Proof.
  intros Hm He s. unfold binary_round_aux.
  pose proof (shr_fexp_pos m e l Hm He) as Hp1.
  pose proof (shr_fexp_range m e l ltac:(lia)) as [_ He1].
  destruct (shr_fexp prec emax m e l) as [mrs' e']; cbn [fst snd] in Hp1, He1.
  pose proof (round_nearest_even_range (shr_m mrs') (loc_of_shr_record mrs') ltac:(lia)) as Hr2.
  set (m2 := round_nearest_even _ _) in *.
  pose proof (shr_fexp_pos m2 e' loc_Exact ltac:(lia) ltac:(lia)) as Hp2.
  destruct (shr_fexp prec emax m2 e' loc_Exact) as [mrs'' e'']; cbn [fst] in Hp2.
  destruct (shr_m mrs'') as [ | q | q]; [lia | | done].
  by destruct (_ <=? _).
Qed.

(** [float(n)] of a positive length is a positive finite number. *)
Lemma py_float_pos (n : Z) :
  1 <= n <= sys_maxsize ->
  exists m e, py_float n = Return (S754_finite false m e).
Proof.
  intros [Hn Hmax]. unfold py_float.
  pose proof (binary_normalize_nonneg n ltac:(lia)) as Hnn.
  pose proof (binary_normalize_no_overflow n ltac:(lia)) as Hfin.
  assert (Hnz : forall s, binary_normalize prec emax n 0 false <> S754_zero s).
  { destruct n as [ | p | p]; try lia. cbn [binary_normalize]. unfold binary_round.
    pose proof (shl_align_spec p 0 (fexp prec emax (Z.pos (digits2_pos p) + 0))) as [Hez _].
    destruct (shl_align _ _ _) as [mz ez]; cbn [fst snd] in Hez.
    intros s. apply binary_round_aux_pos; [lia | ].
    unfold fexp, emin, prec, emax in *. lia. }
  destruct (binary_normalize prec emax n 0 false) as [s | s | | s m e].
  - by destruct (Hnz s).
  - by destruct (Hfin s).
  - done.
  - cbn in Hnn. subst s. by eexists _, _.
Qed.

Lemma py_float_exact (n : Z) :
  0 <= n <= 2 ^ 53 ->
  exists x, py_float n = Return x /\ float_to_int x = Some n.
Proof.
  intros [Hn Hmax].
  destruct (Z.eq_dec n (2 ^ 53)) as [-> | Hne]; [by eexists | ].
  destruct n as [ | p | p]; [by eexists | | lia].
  destruct (binary_round_small p ltac:(lia)) as (mz & Hr & Hmz).
  assert (Hd : 0 <= Zdigits2 (Z.pos p) <= 53) by (apply Zdigits2_le; lia).
  cbn [Zdigits2] in Hd. set (d := Z.pos (digits2_pos p)) in *.
  exists (S754_finite false mz (d - 53)). unfold py_float.
  cbn [binary_normalize]. rewrite Hr. split; [done | ].
  cbn [float_to_int]. replace (- (d - 53)) with (53 - d) by lia.
  assert (Hpow : 0 < 2 ^ (53 - d)) by (apply Z.pow_pos_nonneg; lia).
  destruct (Z.leb_spec 0 (d - 53)) as [Hge | Hlt].
  - replace (d - 53) with 0 by lia. replace (53 - d) with 0 in Hmz by lia.
    rewrite Hmz; f_equal; change (2 ^ 0) with 1; lia.
  - rewrite Hmz, Z.mod_mul, Z.div_mul by lia. cbn [Z.eqb]; f_equal; lia.
Qed.

Lemma finite_lt (m1 m2 : positive) (e1 e2 : Z) :
  e1 < e2 \/ (e1 = e2 /\ Z.pos m1 < Z.pos m2) ->
  float_lt (S754_finite false m1 e1) (S754_finite false m2 e2) = true.
Proof.
  unfold float_lt, SFltb. cbn [SFcompare]. intros [Hlt | [-> Hlt]].
  - by rewrite (proj2 (Z.compare_lt_iff e1 e2) Hlt).
  - rewrite Z.compare_refl. fold (Pos.compare m1 m2).
    by rewrite (proj2 (Pos.compare_lt_iff m1 m2) Hlt).
Qed.

Lemma digits2_pos_mono (p1 p2 : positive) :
  Z.pos p1 <= Z.pos p2 -> Z.pos (digits2_pos p1) <= Z.pos (digits2_pos p2).
Proof.
  intros Hle.
  pose proof (digits2_pos_bounds p1) as [Hlo1 _].
  pose proof (digits2_pos_bounds p2) as [_ Hhi2].
  destruct (Z.le_gt_cases (Z.pos (digits2_pos p1)) (Z.pos (digits2_pos p2)))
    as [ | Hgt]; [done | ].
  assert (2 ^ Z.pos (digits2_pos p2) <= 2 ^ (Z.pos (digits2_pos p1) - 1))
    by (apply Z.pow_le_mono_r; lia).
  lia.
Qed.

(** Up to [2^53] the conversion is strictly increasing. *)
Lemma py_float_strict_mono (n1 n2 : Z) :
  0 <= n1 < n2 -> n2 <= 2 ^ 53 ->
  exists x1 x2, py_float n1 = Return x1 /\ py_float n2 = Return x2
                /\ float_lt x1 x2 = true.
Proof.
  intros [Hn1 Hlt] Hmax.
  destruct n2 as [ | p2 | p2]; try lia.
  assert (Hshape2 : exists m2 e2,
             py_float (Z.pos p2) = Return (S754_finite false m2 e2)
             /\ (Z.pos p2 < 2 ^ 53 ->
                 e2 = Z.pos (digits2_pos p2) - 53
                 /\ Z.pos m2 = Z.pos p2 * 2 ^ (53 - Z.pos (digits2_pos p2)))
             /\ (Z.pos p2 = 2 ^ 53 -> e2 = 1)).
  { destruct (Z.eq_dec (Z.pos p2) (2 ^ 53)) as [Heq | Hne].
    - rewrite Heq. eexists _, _. split; [by vm_compute | ]. split; [lia | done].
    - destruct (binary_round_small p2 ltac:(lia)) as (m2 & Hr & Hm2).
      exists m2, (Z.pos (digits2_pos p2) - 53). unfold py_float.
      cbn [binary_normalize]. rewrite Hr. done. }
  destruct Hshape2 as (m2 & e2 & Hf2 & Hsmall2 & Hbig2).
  destruct n1 as [ | p1 | p1]; try lia.
  { eexists _, _. split; [by vm_compute | ]. split; [done | ]. done. }
  destruct (binary_round_small p1 ltac:(lia)) as (m1 & Hr1 & Hm1).
  exists (S754_finite false m1 (Z.pos (digits2_pos p1) - 53)),
         (S754_finite false m2 e2).
  split; [unfold py_float; cbn [binary_normalize]; by rewrite Hr1 | ].
  split; [done | ]. apply finite_lt.
  assert (Hd1 : 0 <= Zdigits2 (Z.pos p1) <= 53) by (apply Zdigits2_le; lia).
  cbn [Zdigits2] in Hd1.
  destruct (Z.eq_dec (Z.pos p2) (2 ^ 53)) as [Heq | Hne].
  - left. rewrite (Hbig2 Heq). lia.
  - destruct (Hsmall2 ltac:(lia)) as [-> Hm2].
    pose proof (digits2_pos_mono p1 p2 ltac:(lia)) as Hmono.
    destruct (Z.eq_dec (Z.pos (digits2_pos p1)) (Z.pos (digits2_pos p2)))
      as [Hdeq | Hdne]; [right | left; lia].
    split; [lia | ]. rewrite Hm1, Hm2, Hdeq.
    apply Z.mul_lt_mono_pos_r; [apply Z.pow_pos_nonneg; lia | lia].
Qed.

(** ** The adapter as written *)

Section AdapterFacts.
Context {LegacyMetric : Type}.
Variable legacy_new : option (list string) -> option float -> res LegacyMetric.
Variable call_object : pyobj -> Context -> option string -> res InputData.
Variable call_method : attribute -> RegressionErrorBiasTableCalculation ->
  float -> res SingleValue.

(** *** The scalar reduction *)

(** Once the scalar is computed, line 149 fails to find [self.result]. *)
Lemma calculate_value_unbound (self : RegressionErrorBiasTableCalculation)
    (context : Context) (legacy_result : RegressionErrorBiasTableResults)
    (render : list BaseWidgetInfo) :
  bias_size legacy_result <= sys_maxsize ->
  calculate_value call_method self context legacy_result render
  = Raise (AttributeError "result").
Proof.
  intros Hmax. unfold calculate_value, calculate_value_in.
  destruct (scalar_value_returns legacy_result Hmax) as [v ->].
  cbv beta iota delta [mbind res_bind]. by rewrite result_unbound.
Qed.

(** C1: on a legacy result whose feature-bias mapping is [None] and on one
    whose mapping is empty, lines 139-147 compute [0.0], and on one with two
    entries [float(2)]; in each case [calculate_value] then raises
    AttributeError for [result] and returns nothing. *)
Theorem calculate_value_raises_on_empty_mapping :
  scalar_value none_result = Return float_zero
  /\ calculate_value call_method default_adapter default_context none_result []
     = Raise (AttributeError "result")
  /\ scalar_value empty_result = Return float_zero
  /\ calculate_value call_method default_adapter default_context empty_result []
     = Raise (AttributeError "result")
  /\ scalar_value age_income_result = py_float 2
  /\ calculate_value call_method default_adapter default_context
       age_income_result []
     = Raise (AttributeError "result").
Proof.
  repeat split; try done; by apply calculate_value_unbound; vm_compute.
Qed.

(** C4: two legacy results with as many entries, in opposite orders: lines
    139-147 compute the same scalar for both, and both calls of
    [calculate_value] raise AttributeError for [result]: no scalar is
    published for either. *)
Theorem calculate_value_publishes_no_scalar :
  bias_size age_income_result = bias_size income_age_result
  /\ scalar_value age_income_result = scalar_value income_age_result
  /\ calculate_value call_method default_adapter default_context
       age_income_result []
     = Raise (AttributeError "result")
  /\ calculate_value call_method pricing_adapter empty_context
       income_age_result [{| widget_title := "Error Bias Table" |}]
     = Raise (AttributeError "result").
Proof.
  repeat split; try done; by apply calculate_value_unbound; vm_compute.
Qed.

(** C6: with [columns=['age']] and with [columns=['age', 'income']], the
    scalar lines 139-147 compute is [>= 0], and [calculate_value] raises
    AttributeError for [result] instead of returning it. *)
Theorem calculate_value_raises_for_column_selections :
  (exists x, scalar_value age_result = Return x
             /\ float_le float_zero x = true)
  /\ calculate_value call_method age_adapter default_context age_result []
     = Raise (AttributeError "result")
  /\ (exists x, scalar_value age_income_result = Return x
                /\ float_le float_zero x = true)
  /\ calculate_value call_method pricing_adapter default_context
       age_income_result []
     = Raise (AttributeError "result").
Proof.
  repeat split; try (by eexists); by apply calculate_value_unbound; vm_compute.
Qed.

(** *** Task inputs *)

Lemma gen_input_data_unbound (self : RegressionErrorBiasTableCalculation)
    (context : Context) (task : option string) :
  _gen_input_data call_object self context task
  = Raise (NameError "_gen_regression_input_data").
Proof. unfold _gen_input_data, _gen_input_data_in. by rewrite helper_unbound. Qed.

(** C2: on a context in which the task ["default"] is registered, the lookup
    the claim describes gives its columns, and on one without it raises
    TaskNotFound; [_gen_input_data] raises NameError on both. *)
Theorem gen_input_data_never_resolves :
  resolve_task_inputs default_context (task_name default_adapter)
  = Return {| target := "target"; prediction := "prediction" |}
  /\ _gen_input_data call_object default_adapter default_context
       (Some (task_name default_adapter))
     = Raise (NameError "_gen_regression_input_data")
  /\ resolve_task_inputs empty_context (task_name default_adapter)
     = Raise (TaskNotFound "default")
  /\ _gen_input_data call_object default_adapter empty_context
       (Some (task_name default_adapter))
     = Raise (NameError "_gen_regression_input_data").
Proof. repeat split; (apply gen_input_data_unbound || by vm_compute). Qed.

(** A run reaches the engine only after the task inputs were resolved. *)
Lemma calculate_raises_before_engine
    (legacy_calculate : LegacyMetric -> InputData ->
       res (RegressionErrorBiasTableResults * list BaseWidgetInfo))
    (self : RegressionErrorBiasTableCalculation) (context : Context) :
  calculate legacy_new legacy_calculate call_object call_method self context
  = (_ ← legacy_metric legacy_new self;
     Raise (NameError "_gen_regression_input_data")).
Proof.
  pose proof (gen_input_data_unbound self context (Some (task_name self))) as H.
  unfold _gen_input_data in H. unfold calculate, calculate_in.
  destruct (legacy_metric legacy_new self) as [request | e]; [ | done].
  cbv beta iota delta [mbind res_bind]. by rewrite H.
Qed.

(** C3: for every context and every [task_name] argument,
    [_gen_input_data] raises NameError for [_gen_regression_input_data],
    which the module neither defines nor imports; hence every run of the
    adapter raises, and what it raises does not depend on the legacy
    engine: the engine is not reached. *)
Theorem gen_input_data_raises_NameError
    (self : RegressionErrorBiasTableCalculation) (context : Context)
    (task : option string)
    (engine1 engine2 : LegacyMetric -> InputData ->
       res (RegressionErrorBiasTableResults * list BaseWidgetInfo)) :
  module_globals !! "_gen_regression_input_data" = None
  /\ _gen_input_data call_object self context task
     = Raise (NameError "_gen_regression_input_data")
  /\ raises (calculate legacy_new engine1 call_object call_method self context)
  /\ calculate legacy_new engine1 call_object call_method self context
     = calculate legacy_new engine2 call_object call_method self context.
Proof.
  split; [by vm_compute | ]. split; [apply gen_input_data_unbound | ].
  rewrite !calculate_raises_before_engine. split; [ | done].
  destruct (legacy_metric legacy_new self) as [request | e]; by eexists.
Qed.

(** *** The legacy request *)

(** C5: [legacy_metric] hands [columns] and [top_error] of the declaration
    to the legacy constructor as they are and adds no failure of its own:
    it returns what the constructor returns and raises only what the
    constructor raises, whatever the value of [top_error]. *)
Theorem legacy_metric_forwards (self : RegressionErrorBiasTableCalculation) :
  legacy_metric legacy_new self
  = legacy_new (columns (metric self)) (top_error (metric self))
  /\ (forall request,
        legacy_new (columns (metric self)) (top_error (metric self))
        = Return request
        <-> legacy_metric legacy_new self = Return request)
  /\ (forall e,
        legacy_metric legacy_new self = Raise e
        <-> legacy_new (columns (metric self)) (top_error (metric self))
            = Raise e).
Proof. done. Qed.

(** C9: the legacy request does not depend on [regression_name]: two
    declarations with the same [columns] and [top_error] give the same
    legacy request, and their task names are equal exactly when their
    [regression_name]s are. *)
Theorem legacy_metric_ignores_regression_name
    (self1 self2 : RegressionErrorBiasTableCalculation) :
  columns (metric self1) = columns (metric self2) ->
  top_error (metric self1) = top_error (metric self2) ->
  legacy_metric legacy_new self1 = legacy_metric legacy_new self2
  /\ (task_name self1 = task_name self2
      <-> regression_name (metric self1) = regression_name (metric self2)).
Proof. intros Hc Ht. unfold legacy_metric. by rewrite Hc, Ht. Qed.

(** *** The heap *)

Lemma exec_frame (c : adapter_call) (h : Heap) :
  exec legacy_new call_method c h = (pure_outcome legacy_new call_method c h, h).
Proof.
  destruct c as [ | | context render | context]; try done.
  unfold exec, pure_outcome, calculate_value_st, calculate_value,
    calculate_value_in, scalar_value, py_bind, getattr_legacy_result; cbn.
  destruct (error_bias (heap_legacy_result h)) as [eb | ]; [ | done].
  destruct (py_len eb =? 0); [done | ].
  unfold py_lift. by destruct (py_float (py_len eb)).
Qed.

(** C8: whatever sequence of [legacy_metric], [task_name],
    [calculate_value] and [get_additional_widgets] calls is made, the
    declaration and the legacy result in the heap are afterwards what they
    were before, and every call gives what it gives on the initial heap:
    no call leaves anything behind for a later one. *)
Theorem adapter_calls_leave_heap (cs : list adapter_call) (h : Heap) :
  run_calls legacy_new call_method cs h
  = (map (fun c => pure_outcome legacy_new call_method c h) cs, h).
Proof.
  induction cs as [ | c cs IH]; [done | ].
  cbn [run_calls map]. by rewrite exec_frame, IH.
Qed.
End AdapterFacts.

Lemma legacy_metric_ignores_regression_name_witness :
  columns (metric age_adapter)
  = columns (metric {| metric := {| regression_name := "pricing_model";
                                    columns := Some ["age"];
                                    top_error := None |} |})
  /\ top_error (metric age_adapter) = None
  /\ legacy_metric legacy_request_checked age_adapter
     = legacy_metric legacy_request_checked
         {| metric := {| regression_name := "pricing_model";
                         columns := Some ["age"]; top_error := None |} |}.
Proof.
  split; [reflexivity | ]. split; [reflexivity | ].
  apply (legacy_metric_ignores_regression_name legacy_request_checked age_adapter
           {| metric := {| regression_name := "pricing_model";
                           columns := Some ["age"]; top_error := None |} |});
    reflexivity.
Defined.

(** ** More on the scalar reduction *)

(** X1: [calculate_value] never returns: for every adapter, context, legacy
    result and widget list it raises AttributeError for [result]; an
    OverflowError from [float] comes first only for a mapping of more than
    [sys.maxsize] entries, which no container has. *)
Theorem calculate_value_never_returns
    (call_method : attribute -> RegressionErrorBiasTableCalculation ->
       float -> res SingleValue)
    (self : RegressionErrorBiasTableCalculation) (context : Context)
    (legacy_result : RegressionErrorBiasTableResults)
    (render : list BaseWidgetInfo) :
  calculate_value call_method self context legacy_result render
  = Raise (AttributeError "result")
  \/ (calculate_value call_method self context legacy_result render
      = Raise OverflowError
      /\ sys_maxsize < bias_size legacy_result).
Proof.
  destruct (Z.le_gt_cases (bias_size legacy_result) sys_maxsize) as [Hle | Hgt].
  - left. by apply calculate_value_unbound.
  - unfold calculate_value, calculate_value_in.
    rewrite scalar_value_eq. unfold py_float.
    destruct (binary_normalize prec emax (bias_size legacy_result) 0 false);
      cbv beta iota delta [mbind res_bind]; rewrite ?result_unbound;
      (by left) || (right; split; [done | lia]).
Qed.

(** X2: up to [2^53] entries the scalar computed at lines 139-147 is the
    exact count: read back as an integer it is the number of entries of the
    feature-bias mapping. *)
Theorem scalar_value_exact_count
    (legacy_result : RegressionErrorBiasTableResults) :
  bias_size legacy_result <= 2 ^ 53 ->
  exists x, scalar_value legacy_result = Return x
            /\ float_to_int x = Some (bias_size legacy_result).
Proof.
  intros Hmax. rewrite scalar_value_eq. apply py_float_exact.
  pose proof (bias_size_range legacy_result). lia.
Qed.

Lemma scalar_value_exact_count_witness :
  bias_size age_income_result <= 2 ^ 53
  /\ exists x, scalar_value age_income_result = Return x
               /\ float_to_int x = Some 2.
Proof.
  split; [by vm_compute | ].
  apply (scalar_value_exact_count age_income_result). by vm_compute.
Defined.

(** X3: the scalar computed at lines 139-147 is [0.0] exactly when the
    feature-bias mapping is [None] or empty, and a float above [0.0] exactly
    when the mapping has an entry. *)
Theorem scalar_value_zero_iff_empty
    (legacy_result : RegressionErrorBiasTableResults) :
  bias_size legacy_result <= sys_maxsize ->
  exists x, scalar_value legacy_result = Return x
            /\ (x = float_zero <-> bias_size legacy_result = 0)
            /\ (float_lt float_zero x = true <-> 0 < bias_size legacy_result).
Proof.
  intros Hmax. rewrite scalar_value_eq.
  pose proof (bias_size_range legacy_result) as Hpos.
  destruct (Z.eq_dec (bias_size legacy_result) 0) as [-> | Hne].
  - exists float_zero. split; [done | ]. split; [done | ]. split; [done | lia].
  - destruct (py_float_pos (bias_size legacy_result) ltac:(lia)) as (m & e & Hx).
    exists (S754_finite false m e). rewrite Hx.
    split; [done | ]. split; [split; [done | lia] | ]. split; [lia | done].
Qed.

Lemma scalar_value_zero_iff_empty_witness :
  bias_size age_result <= sys_maxsize
  /\ exists x, scalar_value age_result = Return x
               /\ (x = float_zero <-> bias_size age_result = 0)
               /\ (float_lt float_zero x = true <-> 0 < bias_size age_result).
Proof.
  split; [by vm_compute | ].
  apply (scalar_value_zero_iff_empty age_result). by vm_compute.
Defined.

(** X4: up to [2^53] entries, a larger feature-bias mapping gets a strictly
    larger scalar at lines 139-147. *)
Theorem scalar_value_strictly_increasing
    (legacy_result1 legacy_result2 : RegressionErrorBiasTableResults) :
  bias_size legacy_result1 < bias_size legacy_result2 ->
  bias_size legacy_result2 <= 2 ^ 53 ->
  exists x1 x2,
    scalar_value legacy_result1 = Return x1
    /\ scalar_value legacy_result2 = Return x2
    /\ float_lt x1 x2 = true.
Proof.
  intros Hlt Hmax. rewrite !scalar_value_eq.
  pose proof (bias_size_range legacy_result1) as Hpos.
  by apply py_float_strict_mono.
Qed.

Lemma scalar_value_strictly_increasing_witness :
  bias_size age_result < bias_size age_income_result
  /\ bias_size age_income_result <= 2 ^ 53
  /\ exists x1 x2,
       scalar_value age_result = Return x1
       /\ scalar_value age_income_result = Return x2
       /\ float_lt x1 x2 = true.
Proof.
  split; [by vm_compute | ]. split; [by vm_compute | ].
  apply (scalar_value_strictly_increasing age_result age_income_result);
    by vm_compute.
Defined.

(** X5: up to [2^53] entries the scalar computed at lines 139-147 determines
    the count: two legacy results with the same scalar have feature-bias
    mappings of the same size. *)
Theorem scalar_value_injective_on_size
    (legacy_result1 legacy_result2 : RegressionErrorBiasTableResults) :
  bias_size legacy_result1 <= 2 ^ 53 ->
  bias_size legacy_result2 <= 2 ^ 53 ->
  scalar_value legacy_result1 = scalar_value legacy_result2 ->
  bias_size legacy_result1 = bias_size legacy_result2.
Proof.
  intros Hmax1 Hmax2. rewrite !scalar_value_eq.
  pose proof (bias_size_range legacy_result1) as Hpos1.
  pose proof (bias_size_range legacy_result2) as Hpos2.
  destruct (py_float_exact (bias_size legacy_result1) ltac:(lia))
    as (x1 & -> & Hint1).
  destruct (py_float_exact (bias_size legacy_result2) ltac:(lia))
    as (x2 & -> & Hint2).
  intros [= ->]. congruence.
Qed.

Lemma scalar_value_injective_on_size_witness :
  bias_size age_income_result <= 2 ^ 53
  /\ scalar_value age_income_result = scalar_value income_age_result
  /\ bias_size age_income_result = bias_size income_age_result.
Proof.
  split; [by vm_compute | ]. split; [by vm_compute | ].
  apply (scalar_value_injective_on_size age_income_result income_age_result);
    by vm_compute.
Defined.

(** ** Illustrations *)

(** A [top_error] of [0.75] passes through [legacy_metric] to the legacy
    constructor: what a validating constructor raises is what
    [legacy_metric] raises, and a constructor that only stores its arguments
    gets the value unchanged. *)
Example legacy_metric_out_of_range :
  let self := {| metric := {| regression_name := "default"; columns := None;
                              top_error := Some (S754_finite false
                                                   6755399441055744 (-53)) |} |} in
  legacy_metric legacy_request_checked self = Raise (InvalidParameter "top_error")
  /\ legacy_metric
       (fun cols te => Return {| legacy_columns := cols; legacy_top_error := te |})
       self
     = Return {| legacy_columns := None;
                 legacy_top_error := Some (S754_finite false 6755399441055744 (-53)) |}.
Proof. by vm_compute. Qed.

(** The heap does record assignments: one to [self.metric] is visible in the
    heap it leaves, unlike any call of the adapter. *)
Lemma setattr_metric_changes_heap (m : RegressionErrorBiasTable) (h : Heap) :
  heap_metric (setattr_metric m h).2 = m
  /\ heap_legacy_result (setattr_metric m h).2 = heap_legacy_result h.
Proof. done. Qed.

(** Beyond [2^53] neighbouring counts share a float: [2^53] and [2^53 + 1]
    convert to the same value. *)
Example py_float_rounds_above_2_53 :
  py_float (2 ^ 53 + 1) = py_float (2 ^ 53).
Proof. by vm_compute. Qed.
